(** * A SystemC model of a PLL configuration block: register decode and lock sequence

    Shallow embedding of [pll.h] / [pll.cpp] (module [pll]) together with the
    part of the SystemC simulation cycle the module relies on: delta
    notification of an [sc_event], deferred update of an [sc_signal], static
    sensitivity of an [SC_METHOD] and an [SC_THREAD], and the timed [wait].

    Time is counted in nanoseconds ([SC_NS]) as a [Z].  The testbench
    ([pmu_tb.cpp]) and the clock of [main.cpp] are the environment: they are
    presented to the module as a list of stimuli, one per delta cycle in which
    the environment does something the module can see. *)

From Stdlib Require Import ZArith List Bool Lia QArith.
Import ListNotations.
Local Open Scope Z_scope.

(** ** Data types of the SystemC library used by the module *)

(** [sc_uint<W>]: a W-bit unsigned integer; every assignment keeps the low W bits. *)
Definition sc_uint (w : Z) (v : Z) : Z := v mod 2 ^ w.

(** Modelled from the spec: [sc_uint<8>]'s default constructor is library code
    outside src/; the data model gives every register an explicit default, and
    the library sets the value of a default-constructed [sc_uint] to 0. *)
Definition sc_uint_default : Z := 0.

(** C++ [double], idealised: finite values are exact rationals (quotients are
    kept reduced), with the IEEE-754 special values a division can produce.
    Signed zeros and rounding are not modelled. *)
Inductive double : Type :=
| Finite (q : Q)
| PosInf
| NegInf
| NaN.

Definition is_zero (q : Q) : bool := Qnum q =? 0.
Definition is_neg (q : Q) : bool := Qnum q <? 0.

Definition double_of_Z (z : Z) : double := Finite (inject_Z z).

Definition dmul (a b : double) : double :=
  match a, b with
  | Finite x, Finite y => Finite (x * y)
  | NaN, _ | _, NaN => NaN
  | Finite x, PosInf | PosInf, Finite x =>
      if is_zero x then NaN else if is_neg x then NegInf else PosInf
  | Finite x, NegInf | NegInf, Finite x =>
      if is_zero x then NaN else if is_neg x then PosInf else NegInf
  | PosInf, PosInf | NegInf, NegInf => PosInf
  | PosInf, NegInf | NegInf, PosInf => NegInf
  end.

Definition ddiv (a b : double) : double :=
  match a, b with
  | Finite x, Finite y =>
      if is_zero y
      then (if is_zero x then NaN else if is_neg x then NegInf else PosInf)
      else Finite (Qred (x / y))
  | NaN, _ | _, NaN => NaN
  | Finite _, (PosInf | NegInf) => Finite 0
  | PosInf, Finite y => if is_neg y then NegInf else PosInf
  | NegInf, Finite y => if is_neg y then PosInf else NegInf
  | (PosInf | NegInf), (PosInf | NegInf) => NaN
  end.

(** ** The module's state *)

(** The two processes registered in [SC_CTOR(pll)]. *)
Inductive process : Type := BusProcess | LockingProcess.

Definition process_eqb (p q : process) : bool :=
  match p, q with
  | BusProcess, BusProcess | LockingProcess, LockingProcess => true
  | _, _ => false
  end.

(** Where [locking_process] is suspended: at [wait()] (pll.cpp line 214, static
    sensitivity [reset], [start_locking_event]) or inside [wait(500, SC_NS)]
    (line 263), which only its time-out ends. *)
Inductive suspension : Type :=
| AtWait
| AtTimedWait (deadline : Z).

(** The lines the module prints with [cout], in the order of the source. *)
Inductive log_entry : Type :=
| LogRegWrite (t : Z) (reg_index : Z) (data : Z)
| LogEnabled (t : Z)
| LogLocking (t : Z)
| LogElapsed (t : Z)
| LogLocked (t : Z) (period_ns : double).

Record sim : Type := mkSim {
  now : Z;                          (* sc_time_stamp(), in ns *)
  (* input ports: current values of the bound signals *)
  reset : bool;
  bus_we : bool;
  bus_addr : Z;
  bus_wdata : Z;
  (* private members of the module *)
  reg_m : Z;
  reg_n : Z;
  reg_od : Z;
  pll_enable : bool;
  start_locking_event : bool;       (* a delta notification is pending *)
  (* output port [locked] and the signal bound to it *)
  locked : bool;                    (* current value *)
  locked_pending : option bool;     (* value written in this evaluation *)
  locked_drivers : list process;    (* processes that have written it *)
  lp : suspension;                  (* suspension point of locking_process *)
  log : list log_entry;             (* console output *)
  wave : list (Z * bool)            (* value changes of [locked], newest first *)
}.

Definition set_now (t : Z) (s : sim) : sim :=
  mkSim t (reset s) (bus_we s) (bus_addr s) (bus_wdata s) (reg_m s) (reg_n s)
    (reg_od s) (pll_enable s) (start_locking_event s) (locked s)
    (locked_pending s) (locked_drivers s) (lp s) (log s) (wave s).

Definition set_inputs (r we : bool) (a d : Z) (s : sim) : sim :=
  mkSim (now s) r we a d (reg_m s) (reg_n s)
    (reg_od s) (pll_enable s) (start_locking_event s) (locked s)
    (locked_pending s) (locked_drivers s) (lp s) (log s) (wave s).

Definition set_reg_m (v : Z) (s : sim) : sim :=
  mkSim (now s) (reset s) (bus_we s) (bus_addr s) (bus_wdata s) v (reg_n s)
    (reg_od s) (pll_enable s) (start_locking_event s) (locked s)
    (locked_pending s) (locked_drivers s) (lp s) (log s) (wave s).

Definition set_reg_n (v : Z) (s : sim) : sim :=
  mkSim (now s) (reset s) (bus_we s) (bus_addr s) (bus_wdata s) (reg_m s) v
    (reg_od s) (pll_enable s) (start_locking_event s) (locked s)
    (locked_pending s) (locked_drivers s) (lp s) (log s) (wave s).

Definition set_reg_od (v : Z) (s : sim) : sim :=
  mkSim (now s) (reset s) (bus_we s) (bus_addr s) (bus_wdata s) (reg_m s) (reg_n s)
    v (pll_enable s) (start_locking_event s) (locked s)
    (locked_pending s) (locked_drivers s) (lp s) (log s) (wave s).

Definition set_pll_enable (b : bool) (s : sim) : sim :=
  mkSim (now s) (reset s) (bus_we s) (bus_addr s) (bus_wdata s) (reg_m s) (reg_n s)
    (reg_od s) b (start_locking_event s) (locked s)
    (locked_pending s) (locked_drivers s) (lp s) (log s) (wave s).

Definition set_start_locking_event (b : bool) (s : sim) : sim :=
  mkSim (now s) (reset s) (bus_we s) (bus_addr s) (bus_wdata s) (reg_m s) (reg_n s)
    (reg_od s) (pll_enable s) b (locked s)
    (locked_pending s) (locked_drivers s) (lp s) (log s) (wave s).

Definition set_locked (cur : bool) (pend : option bool) (w : list (Z * bool))
    (s : sim) : sim :=
  mkSim (now s) (reset s) (bus_we s) (bus_addr s) (bus_wdata s) (reg_m s) (reg_n s)
    (reg_od s) (pll_enable s) (start_locking_event s) cur
    pend (locked_drivers s) (lp s) (log s) w.

Definition set_locked_drivers (l : list process) (s : sim) : sim :=
  mkSim (now s) (reset s) (bus_we s) (bus_addr s) (bus_wdata s) (reg_m s) (reg_n s)
    (reg_od s) (pll_enable s) (start_locking_event s) (locked s)
    (locked_pending s) l (lp s) (log s) (wave s).

Definition set_lp (p : suspension) (s : sim) : sim :=
  mkSim (now s) (reset s) (bus_we s) (bus_addr s) (bus_wdata s) (reg_m s) (reg_n s)
    (reg_od s) (pll_enable s) (start_locking_event s) (locked s)
    (locked_pending s) (locked_drivers s) p (log s) (wave s).

Definition cout (l : list log_entry) (s : sim) : sim :=
  mkSim (now s) (reset s) (bus_we s) (bus_addr s) (bus_wdata s) (reg_m s) (reg_n s)
    (reg_od s) (pll_enable s) (start_locking_event s) (locked s)
    (locked_pending s) (locked_drivers s) (lp s) (log s ++ l) (wave s).

(** ** Kernel primitives *)

(** Modelled from the spec: [sc_event::notify(SC_ZERO_TIME)] is library code
    outside src/.  An event holds one pending flag; notifying schedules the
    wake-up of its subscribers for the next round, and notifying again before it
    fires queues nothing more. *)
Definition notify (s : sim) : sim := set_start_locking_event true s.

(** Modelled from the spec: [sc_signal::write] is library code outside src/.
    A write sets the pending value, which readers do not see before the round
    boundary; the last write of a round wins.  The writing process is recorded
    as a driver of the signal; what the library does on finding a second
    driver is not modelled. *)
Definition locked_write (p : process) (v : bool) (s : sim) : sim :=
  set_locked_drivers
    (if existsb (process_eqb p) (locked_drivers s) then locked_drivers s
     else locked_drivers s ++ [p])
    (set_locked (locked s) (Some v) (wave s) s).

(** Modelled from the spec: the update phase of the scheduler is library code
    outside src/.  At the round boundary a pending value becomes the current
    one; the traced waveform (main.cpp, [sc_trace] of [locked_sig]) records the
    instant of every change of value. *)
Definition update (s : sim) : sim :=
  match locked_pending s with
  | None => s
  | Some v =>
      set_locked v None
        (if eqb v (locked s) then wave s else (now s, v) :: wave s) s
  end.

(** ** pll.h: register map and constructor *)

Definition PLL_REG_N_ADDR : Z := 0x00.
Definition PLL_REG_M_ADDR : Z := 0x04.
Definition PLL_REG_OD_ADDR : Z := 0x08.
Definition PLL_REG_CTRL_ADDR : Z := 0x0C.

(** The storage of the four private members before any constructor has run:
    whatever the memory holds. *)
Record raw_members : Type := mkRaw {
  raw_reg_m : Z;
  raw_reg_n : Z;
  raw_reg_od : Z;
  raw_pll_enable : bool
}.

(** The four configuration members, as the module holds them. *)
Record config : Type := mkConfig {
  cfg_m : Z;
  cfg_n : Z;
  cfg_od : Z;
  cfg_enable : bool
}.

(** Construction of the members: [sc_uint<8> reg_m, reg_n, reg_od] run their
    default constructor, the [bool] is left as the memory has it. *)
Definition member_init (r : raw_members) : config :=
  mkConfig sc_uint_default sc_uint_default sc_uint_default (raw_pll_enable r).

(** Body of [SC_CTOR(pll)]: the one assignment [pll_enable = false]. *)
Definition SC_CTOR_body (c : config) : config :=
  mkConfig (cfg_m c) (cfg_n c) (cfg_od c) false.

Definition SC_CTOR (r : raw_members) : config := SC_CTOR_body (member_init r).

Definition config_of (s : sim) : config :=
  mkConfig (reg_m s) (reg_n s) (reg_od s) (pll_enable s).

Definition reset_config : config := mkConfig 0 0 0 false.

(** ** pll.cpp: the two processes *)

(** [pll::bus_process], an [SC_METHOD]; one call is one invocation. *)
Definition bus_process (s : sim) : sim :=
  if reset s then
    cout [LogRegWrite (now s) 3 0; LogRegWrite (now s) 2 0;
          LogRegWrite (now s) 1 0; LogRegWrite (now s) 0 0]
      (set_pll_enable false (set_reg_od (sc_uint 8 0) (set_reg_n (sc_uint 8 0)
        (set_reg_m (sc_uint 8 0) s))))
  else if bus_we s then
    let reg_index := bus_addr s / 4 in
    let s1 :=
      if bus_addr s =? PLL_REG_N_ADDR then set_reg_n (sc_uint 8 (bus_wdata s)) s
      else if bus_addr s =? PLL_REG_M_ADDR then set_reg_m (sc_uint 8 (bus_wdata s)) s
      else if bus_addr s =? PLL_REG_OD_ADDR then set_reg_od (sc_uint 8 (bus_wdata s)) s
      else if bus_addr s =? PLL_REG_CTRL_ADDR then
        if bus_wdata s =? 1 then notify (set_pll_enable true s)
        else locked_write BusProcess false (set_pll_enable false s)
      else s in
    cout [LogRegWrite (now s) reg_index (bus_wdata s)] s1
  else s.

Definition F_REF_MHZ : double := double_of_Z 25.

(** [f_out_mhz = (F_REF_MHZ * reg_m) / (reg_n * reg_od)]: the product of the two
    registers is an integer, the quotient a [double]. *)
Definition f_out_mhz (m n od : Z) : double :=
  ddiv (dmul F_REF_MHZ (double_of_Z m)) (double_of_Z (n * od)).

(** [period_ns = 1000.0 / f_out_mhz]. *)
Definition period_ns (m n od : Z) : double :=
  ddiv (double_of_Z 1000) (f_out_mhz m n od).

Definition LOCK_TIME_NS : Z := 500.

(** [pll::locking_process], an [SC_THREAD]: one call runs the body from the
    suspension point where the thread was resumed to the next [wait]. *)
Definition locking_process (s : sim) : sim :=
  match lp s with
  | AtWait =>
      if reset s then locked_write LockingProcess false s
      else if pll_enable s then
        set_lp (AtTimedWait (now s + LOCK_TIME_NS))
          (cout [LogEnabled (now s); LogLocking (now s)]
            (locked_write LockingProcess false s))
      else s
  | AtTimedWait _ =>
      let s1 := set_lp AtWait s in
      if pll_enable s then
        cout [LogElapsed (now s);
              LogLocked (now s) (period_ns (reg_m s) (reg_n s) (reg_od s))]
          (locked_write LockingProcess true s1)
      else s1
  end.

Definition run_process (p : process) (s : sim) : sim :=
  match p with
  | BusProcess => bus_process s
  | LockingProcess => locking_process s
  end.

(** ** The simulation cycle, as far as the module takes part in it *)

(** One delta cycle as the environment (clock and testbench) presents it to the
    module: the instant, whether [clk.pos()] is triggered for this evaluation,
    the values the input signals hold during it, and which of the two
    processes the kernel runs first should both be runnable (the standard
    leaves that order open). *)
Record stim : Type := mkStim {
  s_time : Z;
  s_clk_pos : bool;
  s_reset : bool;
  s_bus_we : bool;
  s_bus_addr : Z;
  s_bus_wdata : Z;
  s_bus_first : bool
}.

(** Modelled from the spec: process activation is library code outside src/.
    [bus_process] is sensitive to [clk.pos()] and to [reset]; [locking_process]
    at [wait()] to [reset] and [start_locking_event], and inside the timed wait
    to its deadline only (pll.h lines 335 and 376, pll.cpp line 263). *)
Definition bus_runnable (clk_pos reset_changed : bool) : bool :=
  clk_pos || reset_changed.

Definition lock_runnable (reset_changed start_fired : bool) (s : sim) : bool :=
  match lp s with
  | AtWait => reset_changed || start_fired
  | AtTimedWait d => d <=? now s
  end.

Definition runnable (clk_pos reset_changed start_fired bus_first : bool)
    (s : sim) : list process :=
  match bus_runnable clk_pos reset_changed,
        lock_runnable reset_changed start_fired s with
  | true, true =>
      if bus_first then [BusProcess; LockingProcess]
      else [LockingProcess; BusProcess]
  | true, false => [BusProcess]
  | false, true => [LockingProcess]
  | false, false => []
  end.

Definition evaluate (q : list process) (s : sim) : sim :=
  fold_left (fun st p => run_process p st) q s.

(** Modelled from the spec: one round of the scheduler (library code outside
    src/): the pending notification of the start event fires, the runnable
    processes are evaluated, then the signal update is committed. *)
Definition delta_cycle (clk_pos reset_changed bus_first : bool) (s : sim) : sim :=
  let q := runnable clk_pos reset_changed (start_locking_event s) bus_first s in
  update (evaluate q (set_start_locking_event false s)).

(** A delta cycle in which the environment takes part: time moves to the
    stimulus (never backwards), the input signals take its values. *)
Definition ext_delta (e : stim) (s : sim) : sim :=
  let reset_changed := xorb (reset s) (s_reset e) in
  delta_cycle (s_clk_pos e) reset_changed (s_bus_first e)
    (set_inputs (s_reset e) (s_bus_we e)
       (sc_uint 32 (s_bus_addr e)) (sc_uint 32 (s_bus_wdata e))
       (set_now (Z.max (now s) (s_time e)) s)).

(** A delta cycle of the module's own making, at instant [t]. *)
Definition int_delta (t : Z) (s : sim) : sim :=
  delta_cycle false false true (set_now (Z.max (now s) t) s).

(** The instant of the module's next own activity, if any: a pending delta
    notification fires in the next round of the current instant, a timed wait
    at its deadline. *)
Definition next_internal (s : sim) : option Z :=
  if start_locking_event s then Some (now s)
  else match lp s with
       | AtTimedWait d => Some d
       | AtWait => None
       end.

(** Run the module's own activity that falls strictly before instant [te]. *)
Fixpoint settle (fuel : nat) (te : Z) (s : sim) : sim :=
  match fuel with
  | O => s
  | S n =>
      match next_internal s with
      | Some t => if t <? te then settle n te (int_delta t s) else s
      | None => s
      end
  end.

(** Two rounds always suffice (see [settle_settled]). *)
Definition SETTLE_FUEL : nat := 2.

Definition step (e : stim) (s : sim) : sim :=
  ext_delta e (settle SETTLE_FUEL (s_time e) s).

Definition run (l : list stim) (s : sim) : sim :=
  fold_left (fun st e => step e st) l s.

(** [sc_start] up to and including instant [tend]. *)
Definition run_until (tend : Z) (l : list stim) (s : sim) : sim :=
  settle SETTLE_FUEL (tend + 1) (run l s).

(** Elaboration (main.cpp): signals start at their default value, the members
    as [SC_CTOR] leaves them; then the initialization phase runs every process
    once, the thread up to its first [wait()]. *)
Definition elaborate (r : raw_members) : sim :=
  let c := SC_CTOR r in
  mkSim 0 false false 0 0 (cfg_m c) (cfg_n c) (cfg_od c) (cfg_enable c)
    false false None [] AtWait [] [].

Definition initialize (r : raw_members) : sim :=
  update (bus_process (elaborate r)).

Definition init : sim := initialize (mkRaw 0 0 0 false).

(** Value of the traced [locked] line at instant [t]. *)
Fixpoint locked_at (w : list (Z * bool)) (t : Z) : bool :=
  match w with
  | [] => false
  | (t', v) :: w' => if t' <=? t then v else locked_at w' t
  end.

(** ** The stimulus of pmu_tb.cpp, [run_test], under the 10 ns clock of main.cpp *)

Definition CLK_PERIOD : Z := 10.

(** A rising clock edge at cycle [k] with the given input values. *)
Definition edge (k : Z) (r we : bool) (a d : Z) : stim :=
  mkStim (k * CLK_PERIOD) true r we a d true.

(** The round after the edge of cycle [k], in which the testbench's writes of
    that edge have become visible. *)
Definition after_edge (k : Z) (r we : bool) (a d : Z) : stim :=
  mkStim (k * CLK_PERIOD) false r we a d true.

Definition run_test : list stim :=
  [ edge 0 false false 0 0; after_edge 0 true false 0 0;
    edge 1 true false 0 0; edge 2 true false 0 0; edge 3 true false 0 0;
    edge 4 true false 0 0; edge 5 true false 0 0; after_edge 5 false false 0 0;
    edge 6 false false 0 0; after_edge 6 false true PLL_REG_N_ADDR 1;
    edge 7 false true PLL_REG_N_ADDR 1; after_edge 7 false true PLL_REG_M_ADDR 32;
    edge 8 false true PLL_REG_M_ADDR 32; after_edge 8 false true PLL_REG_OD_ADDR 1;
    edge 9 false true PLL_REG_OD_ADDR 1; after_edge 9 false true PLL_REG_CTRL_ADDR 1;
    edge 10 false true PLL_REG_CTRL_ADDR 1;
    after_edge 10 false false PLL_REG_CTRL_ADDR 1 ].

(** ** Vocabulary for stimuli and for the phases of a lock attempt *)

(** A one-cycle write transaction, sampled by [bus_process] at the clock edge
    of instant [t], with reset low. *)
Definition bus_write (t a d : Z) (bus_first : bool) : stim :=
  mkStim t true false true a d bus_first.

(** The stimulus, arriving when reset was [r0], makes [bus_process] run and
    decode a bus write: the process is triggered, reset reads low and the
    write strobe high. *)
Definition decodes (r0 : bool) (e : stim) : bool :=
  bus_runnable (s_clk_pos e) (xorb r0 (s_reset e)) && negb (s_reset e)
  && s_bus_we e.

(** ... and the write takes the branch [bus_wdata.read() == 1] of
    [case PLL_REG_CTRL_ADDR]. *)
Definition enables (r0 : bool) (e : stim) : bool :=
  decodes r0 e && (sc_uint 32 (s_bus_addr e) =? PLL_REG_CTRL_ADDR)
  && (sc_uint 32 (s_bus_wdata e) =? 1).

(** No stimulus of the list makes [bus_process] decode a write; [r0] is the
    value of reset before the first one. *)
Fixpoint no_decode (r0 : bool) (l : list stim) : Prop :=
  match l with
  | [] => True
  | e :: l' => decodes r0 e = false /\ no_decode (s_reset e) l'
  end.

(** No stimulus of the list is an enabling write; [r0] is the value of reset
    before the first one. *)
Fixpoint no_enable (r0 : bool) (l : list stim) : Prop :=
  match l with
  | [] => True
  | e :: l' => enables r0 e = false /\ no_enable (s_reset e) l'
  end.

(** No write and no reset. *)
Definition quiet (e : stim) : Prop := s_reset e = false /\ s_bus_we e = false.

(** The thread waits at [wait()], no notification and no signal write is
    outstanding. *)
Definition at_rest (s : sim) : Prop :=
  lp s = AtWait /\ start_locking_event s = false /\ locked_pending s = None.

(** Disabled and unlocked. *)
Definition disabled (s : sim) : Prop :=
  pll_enable s = false /\ start_locking_event s = false /\
  locked s = false /\ locked_pending s = None.

(** The waveform once a lock sequence has started at [T] over waveform [w]
    with the line at value [lk]: the line is driven low, which is a change only
    if it was high. *)
Definition wave_started (T : Z) (lk : bool) (w : list (Z * bool)) : list (Z * bool) :=
  if lk then (T, false) :: w else w.

(** The phases of the lock attempt enabled at [T]: start event pending,
    500 ns wait running, locked. *)
Definition attempt (T : Z) (lk : bool) (w : list (Z * bool)) (s : sim) : Prop :=
  pll_enable s = true /\ reset s = false /\ locked_pending s = None /\
  T <= now s /\
  ((lp s = AtWait /\ start_locking_event s = true /\ now s = T /\
    locked s = lk /\ wave s = w)
   \/ (lp s = AtTimedWait (T + LOCK_TIME_NS) /\ now s < T + LOCK_TIME_NS /\
       locked s = false /\ wave s = wave_started T lk w)
   \/ (lp s = AtWait /\ start_locking_event s = false /\
       T + LOCK_TIME_NS <= now s /\ locked s = true /\
       wave s = (T + LOCK_TIME_NS, true) :: wave_started T lk w)).

(** Nothing of the module's own making is due before instant [te]. *)
Definition settled (te : Z) (s : sim) : Prop :=
  match next_internal s with
  | Some t => te <= t
  | None => True
  end.

(** Disabled and unlocked, in the middle of an evaluation: a write of false to
    the line may be outstanding. *)
Definition disabled_mid (s : sim) : Prop :=
  pll_enable s = false /\ start_locking_event s = false /\
  locked s = false /\
  (locked_pending s = None \/ locked_pending s = Some false).

(** With the values now at the ports, [bus_process] would take the enable
    branch. *)
Definition enable_at_ports (s : sim) : bool :=
  negb (reset s) && bus_we s && (bus_addr s =? PLL_REG_CTRL_ADDR)
  && (bus_wdata s =? 1).

(** A stimulus at which [bus_process], run with reset low before it, clears
    the enable flag: reset goes high, or a value other than 1 is written to
    CTRL at a clock edge. *)
Definition disabling (e : stim) : Prop :=
  s_reset e = true
  \/ (s_reset e = false /\ s_clk_pos e = true /\ s_bus_we e = true /\
      sc_uint 32 (s_bus_addr e) = PLL_REG_CTRL_ADDR /\
      sc_uint 32 (s_bus_wdata e) <> 1).

(** The instant and the values at the input ports. *)
Definition env_of (s : sim) : Z * bool * bool * Z * Z :=
  (now s, reset s, bus_we s, bus_addr s, bus_wdata s).

(** How often the kernel resumes [locking_process] in an evaluation. *)
Definition wakeups (q : list process) : nat :=
  length (filter (process_eqb LockingProcess) q).

(** The parts of [run_test] before and after the write of 1 to CTRL. *)
Definition run_test_pre : list stim := firstn 16 run_test.
Definition run_test_post : list stim := skipn 17 run_test.

(** Reset going high between two clock edges. *)
Definition reset_at (t : Z) : stim := mkStim t false true false 0 0 true.

(** A lock with only M written: N and OD are still 0 when the wait ends. *)
Definition lock_without_dividers : list stim :=
  [bus_write 10 PLL_REG_M_ADDR 32 true; bus_write 20 PLL_REG_CTRL_ADDR 1 true].

(** * Properties *)

(** ** Automation *)

Arguments sc_uint : simpl never.

Ltac rw_hyps :=
  repeat match goal with
  | H : ?l = _ |- context [?l] =>
      lazymatch l with
      | _ ?s => is_var s; rewrite H
      end
  end.

Ltac norm := repeat progress (cbn; rw_hyps).

Ltac cases :=
  repeat (norm;
          match goal with
          | |- context [if ?b then _ else _] => destruct b eqn:?
          | |- context [match ?x with AtWait => _ | AtTimedWait _ => _ end] =>
              destruct x eqn:?
          | |- context [match ?x with Some _ => _ | None => _ end] =>
              destruct x eqn:?
          end);
  norm.

Ltac zb :=
  repeat match goal with
  | H : (_ <=? _) = true |- _ => apply Z.leb_le in H
  | H : (_ <=? _) = false |- _ => apply Z.leb_gt in H
  | H : (_ <? _) = true |- _ => apply Z.ltb_lt in H
  | H : (_ <? _) = false |- _ => apply Z.ltb_ge in H
  | H : (_ =? _) = true |- _ => apply Z.eqb_eq in H
  | H : (_ =? _) = false |- _ => apply Z.eqb_neq in H
  end.

(** ** What each process and the update leave alone *)

Lemma bus_process_env s : env_of (bus_process s) = env_of s.
Proof. unfold env_of, bus_process, notify, locked_write. cases; reflexivity. Qed.

Lemma locking_process_env s : env_of (locking_process s) = env_of s.
Proof. unfold env_of, locking_process, locked_write. cases; reflexivity. Qed.

Lemma run_process_env p s : env_of (run_process p s) = env_of s.
Proof. destruct p; [apply bus_process_env | apply locking_process_env]. Qed.

Lemma evaluate_env q s : env_of (evaluate q s) = env_of s.
Proof.
  revert s. induction q as [|p q IH]; intros s; [reflexivity|].
  cbn. unfold evaluate in IH. rewrite IH. apply run_process_env.
Qed.

Lemma update_env s : env_of (update s) = env_of s.
Proof. unfold env_of, update. cases; reflexivity. Qed.

Lemma env_of_now s s' : env_of s' = env_of s -> now s' = now s.
Proof. unfold env_of. congruence. Qed.

Lemma now_delta_cycle c r b s : now (delta_cycle c r b s) = now s.
Proof.
  unfold delta_cycle. apply env_of_now.
  rewrite update_env, evaluate_env. reflexivity.
Qed.

Lemma now_int_delta t s : now (int_delta t s) = Z.max (now s) t.
Proof. unfold int_delta. rewrite now_delta_cycle. reflexivity. Qed.

Lemma now_ext_delta e s : now (ext_delta e s) = Z.max (now s) (s_time e).
Proof. unfold ext_delta. rewrite now_delta_cycle. reflexivity. Qed.

Lemma reset_ext_delta e s : reset (ext_delta e s) = s_reset e.
Proof.
  unfold ext_delta, delta_cycle.
  match goal with |- reset (update (evaluate ?q ?s0)) = _ =>
    assert (H : env_of (update (evaluate q s0)) = env_of s0)
      by (rewrite update_env, evaluate_env; reflexivity)
  end.
  unfold env_of in H. injection H as _ Hr _ _ _. exact Hr.
Qed.

Lemma now_settle n te s :
  now s <= now (settle n te s) /\ now (settle n te s) <= Z.max (now s) te.
Proof.
  revert s. induction n as [|n IH]; intros s; cbn; [lia|].
  destruct (next_internal s) as [t|]; [|lia].
  destruct (t <? te) eqn:E; [|lia]. zb.
  specialize (IH (int_delta t s)). rewrite now_int_delta in IH. lia.
Qed.

Lemma now_step e s :
  now s <= now (step e s) /\ now (step e s) <= Z.max (now s) (s_time e).
Proof.
  unfold step. rewrite now_ext_delta.
  pose proof (now_settle SETTLE_FUEL (s_time e) s). lia.
Qed.

(** Simulated time never decreases along a run. *)
Lemma now_run l s B :
  now s <= B -> Forall (fun e => s_time e <= B) l ->
  now s <= now (run l s) /\ now (run l s) <= B.
Proof.
  revert s. induction l as [|e l IH]; intros s Hs Hl; cbn; [lia|].
  inversion Hl; subst. pose proof (now_step e s).
  specialize (IH (step e s)). unfold run in IH.
  assert (now (step e s) <= B) by lia. specialize (IH H0 H2). lia.
Qed.

(** The configuration members are written by [bus_process] only. *)
Lemma locking_process_config s : config_of (locking_process s) = config_of s.
Proof. unfold config_of, locking_process, locked_write. cases; reflexivity. Qed.

Lemma update_config s : config_of (update s) = config_of s.
Proof. unfold config_of, update. cases; reflexivity. Qed.

(** ** While disabled, the line stays low *)

Lemma bus_process_disabled s :
  disabled_mid s -> enable_at_ports s = false ->
  disabled_mid (bus_process s) /\ wave (bus_process s) = wave s /\
  lp (bus_process s) = lp s.
Proof.
  unfold disabled_mid, enable_at_ports. intros (He & Hv & Hl & Hp) Hen.
  unfold bus_process, notify, locked_write.
  cases; auto 10.
Qed.

Lemma locking_process_disabled s :
  disabled_mid s ->
  disabled_mid (locking_process s) /\ wave (locking_process s) = wave s /\
  (lp (locking_process s) = lp s \/ lp (locking_process s) = AtWait).
Proof.
  unfold disabled_mid. intros (He & Hv & Hl & Hp).
  unfold locking_process, locked_write.
  cases; auto 10.
Qed.

Lemma enable_at_ports_env s s' :
  env_of s' = env_of s -> enable_at_ports s' = enable_at_ports s.
Proof.
  unfold env_of, enable_at_ports. intros H.
  injection H as _ -> -> -> ->. reflexivity.
Qed.

Lemma evaluate_disabled q s :
  disabled_mid s -> (In BusProcess q -> enable_at_ports s = false) ->
  disabled_mid (evaluate q s) /\ wave (evaluate q s) = wave s /\
  (lp (evaluate q s) = lp s \/ lp (evaluate q s) = AtWait).
Proof.
  revert s. induction q as [|p q IH]; intros s Hd Hen; [auto|].
  change (evaluate (p :: q) s) with (evaluate q (run_process p s)).
  assert (Hp : disabled_mid (run_process p s) /\
               wave (run_process p s) = wave s /\
               (lp (run_process p s) = lp s \/ lp (run_process p s) = AtWait)).
  { destruct p; cbn.
    - destruct (bus_process_disabled s Hd (Hen (or_introl eq_refl))) as (? & ? & ?).
      auto.
    - apply locking_process_disabled, Hd. }
  destruct Hp as (Hd' & Hw' & Hl').
  assert (Hen' : In BusProcess q -> enable_at_ports (run_process p s) = false).
  { intros Hin. rewrite (enable_at_ports_env s); [|apply run_process_env].
    apply Hen. right. exact Hin. }
  destruct (IH _ Hd' Hen') as (? & Hw'' & Hl'').
  split; [assumption|]. split; [congruence|].
  destruct Hl'' as [->| ->]; auto.
Qed.

Lemma update_disabled s :
  disabled_mid s ->
  disabled (update s) /\ wave (update s) = wave s /\ lp (update s) = lp s.
Proof.
  unfold disabled_mid, disabled, update. intros (He & Hv & Hl & [Hp|Hp]);
    rewrite Hp; cbn; rewrite ?Hl; cbn; auto.
Qed.

Lemma runnable_bus c r f b s :
  In BusProcess (runnable c r f b s) -> bus_runnable c r = true.
Proof.
  unfold runnable.
  destruct (bus_runnable c r); [reflexivity|].
  destruct (lock_runnable r f s); cbn; intuition discriminate.
Qed.

Lemma delta_cycle_disabled c r b s :
  disabled s -> (bus_runnable c r = true -> enable_at_ports s = false) ->
  disabled (delta_cycle c r b s) /\ wave (delta_cycle c r b s) = wave s /\
  (lp (delta_cycle c r b s) = lp s \/ lp (delta_cycle c r b s) = AtWait).
Proof.
  intros (He & Hv & Hl & Hp) Hen. unfold delta_cycle.
  set (q := runnable _ _ _ _ _).
  set (s0 := set_start_locking_event false s).
  assert (Hd : disabled_mid s0) by (unfold disabled_mid; cbn; auto).
  assert (Hen0 : In BusProcess q -> enable_at_ports s0 = false)
    by (intros Hin; apply Hen, (runnable_bus _ _ _ _ _ Hin)).
  destruct (evaluate_disabled q s0 Hd Hen0) as (Hd1 & Hw1 & Hl1).
  destruct (update_disabled _ Hd1) as (Hd2 & Hw2 & Hl2).
  split; [assumption|]. split; [rewrite Hw2, Hw1; reflexivity|].
  rewrite Hl2. exact Hl1.
Qed.

Lemma int_delta_disabled t s :
  disabled s ->
  disabled (int_delta t s) /\ wave (int_delta t s) = wave s /\
  (lp (int_delta t s) = lp s \/ lp (int_delta t s) = AtWait).
Proof.
  intros Hd. unfold int_delta.
  set (s0 := set_now _ s).
  assert (Hd0 : disabled s0)
    by (destruct Hd as (? & ? & ? & ?); unfold disabled; cbn; auto).
  apply (delta_cycle_disabled false false true s0 Hd0).
  cbn. discriminate.
Qed.

Lemma reset_int_delta t s : reset (int_delta t s) = reset s.
Proof.
  unfold int_delta, delta_cycle.
  match goal with |- reset (update (evaluate ?q ?s0)) = _ =>
    assert (H : env_of (update (evaluate q s0)) = env_of s0)
      by (rewrite update_env, evaluate_env; reflexivity)
  end.
  unfold env_of in H. injection H as _ Hr _ _ _. exact Hr.
Qed.

Lemma reset_settle n te s : reset (settle n te s) = reset s.
Proof.
  revert s. induction n as [|n IH]; intros s; cbn; [reflexivity|].
  destruct (next_internal s) as [t|]; [|reflexivity].
  destruct (t <? te); [|reflexivity].
  rewrite IH. apply reset_int_delta.
Qed.

Lemma reset_step e s : reset (step e s) = s_reset e.
Proof. unfold step. apply reset_ext_delta. Qed.

Lemma ext_delta_disabled e s :
  disabled s -> enables (reset s) e = false ->
  disabled (ext_delta e s) /\ wave (ext_delta e s) = wave s /\
  (lp (ext_delta e s) = lp s \/ lp (ext_delta e s) = AtWait).
Proof.
  intros Hd Hen. unfold ext_delta.
  set (s0 := set_inputs _ _ _ _ _).
  assert (Hd0 : disabled s0)
    by (destruct Hd as (? & ? & ? & ?); unfold disabled; cbn; auto).
  apply (delta_cycle_disabled _ _ _ s0 Hd0).
  intros Hb. unfold enables, decodes in Hen. rewrite Hb in Hen. exact Hen.
Qed.

Lemma settle_disabled n te s :
  disabled s ->
  disabled (settle n te s) /\ wave (settle n te s) = wave s /\
  (lp (settle n te s) = lp s \/ lp (settle n te s) = AtWait).
Proof.
  revert s. induction n as [|n IH]; intros s Hd; cbn; [auto|].
  destruct (next_internal s) as [t|]; [|auto].
  destruct (t <? te); [|auto].
  destruct (int_delta_disabled t s Hd) as (Hd1 & Hw1 & Hl1).
  destruct (IH _ Hd1) as (Hd2 & Hw2 & Hl2).
  split; [assumption|]. split; [congruence|].
  destruct Hl2 as [->| ->]; auto.
Qed.

Lemma step_disabled e s :
  disabled s -> enables (reset s) e = false ->
  disabled (step e s) /\ wave (step e s) = wave s /\
  (lp (step e s) = lp s \/ lp (step e s) = AtWait).
Proof.
  intros Hd Hen. unfold step.
  destruct (settle_disabled SETTLE_FUEL (s_time e) s Hd) as (Hd1 & Hw1 & Hl1).
  rewrite <- (reset_settle SETTLE_FUEL (s_time e) s) in Hen.
  destruct (ext_delta_disabled e _ Hd1 Hen) as (Hd2 & Hw2 & Hl2).
  split; [assumption|]. split; [congruence|].
  destruct Hl2 as [->| ->]; auto.
Qed.

Lemma run_disabled l s :
  disabled s -> no_enable (reset s) l ->
  disabled (run l s) /\ wave (run l s) = wave s /\
  (lp (run l s) = lp s \/ lp (run l s) = AtWait).
Proof.
  revert s. induction l as [|e l IH]; intros s Hd Hl; [cbn; auto|].
  destruct Hl as (H1 & H2).
  change (run (e :: l) s) with (run l (step e s)).
  destruct (step_disabled e s Hd H1) as (Hd1 & Hw1 & Hl1).
  rewrite <- (reset_step e s) in H2.
  destruct (IH _ Hd1 H2) as (Hd2 & Hw2 & Hl2).
  split; [assumption|]. split; [congruence|].
  destruct Hl2 as [->| ->]; auto.
Qed.

Arguments period_ns : simpl never.

Ltac eq_z :=
  repeat match goal with
  | |- _ :: _ = _ :: _ => f_equal
  | |- (_, _) = (_, _) => f_equal
  | |- AtTimedWait _ = AtTimedWait _ => f_equal
  end;
  solve [lia | congruence].

Ltac fin lk :=
  unfold LOCK_TIME_NS in *; try destruct lk; cbn in *;
  solve [congruence | eq_z].

(** ** The module's own rounds *)

Lemma int_delta_flag t s : start_locking_event (int_delta t s) = false.
Proof.
  unfold int_delta, delta_cycle, runnable, bus_runnable, lock_runnable,
    evaluate, update, run_process, locking_process, locked_write.
  cases; reflexivity.
Qed.

Lemma int_delta_timeout t s d :
  lp s = AtTimedWait d -> d <= Z.max (now s) t -> lp (int_delta t s) = AtWait.
Proof.
  intros Hl Hd.
  unfold int_delta, delta_cycle, runnable, bus_runnable, lock_runnable,
    evaluate, update, run_process, locking_process, locked_write.
  cases; try reflexivity; zb; lia.
Qed.

(** Two rounds of [settle] exhaust the module's own activity before [te]:
    at most the start event fires, then the timed wait ends. *)
Lemma settle_settled te s : settled te (settle SETTLE_FUEL te s).
Proof.
  unfold SETTLE_FUEL, settled. cbn [settle].
  destruct (next_internal s) as [t|] eqn:E1; [|rewrite E1; exact I].
  destruct (t <? te) eqn:L1; [|rewrite E1; zb; lia].
  destruct (next_internal (int_delta t s)) as [t1|] eqn:E2; [|rewrite E2; exact I].
  destruct (t1 <? te) eqn:L2; [|rewrite E2; zb; lia].
  unfold next_internal in E2. rewrite int_delta_flag in E2.
  destruct (lp (int_delta t s)) as [|d] eqn:El; [discriminate|].
  injection E2 as ->.
  unfold next_internal. rewrite int_delta_flag.
  rewrite (int_delta_timeout t1 (int_delta t s) t1 El); [exact I | lia].
Qed.

Lemma settle_at_rest n te s : at_rest s -> settle n te s = s.
Proof.
  intros (Hl & Hv & _). destruct n; [reflexivity|].
  cbn. unfold next_internal. rewrite Hv, Hl. reflexivity.
Qed.

(** ** A lock attempt under a quiet environment *)

Lemma bus_process_quiet s : reset s = false -> bus_we s = false -> bus_process s = s.
Proof. intros Hr Hw. unfold bus_process. rewrite Hr, Hw. reflexivity. Qed.

Lemma evaluate_quiet c r f b s0 s :
  reset s = false -> bus_we s = false ->
  evaluate (runnable c r f b s0) s =
  if lock_runnable r f s0 then locking_process s else s.
Proof.
  intros Hr Hw.
  assert (Hb : bus_process (locking_process s) = locking_process s).
  { pose proof (locking_process_env s) as H. unfold env_of in H.
    injection H as _ Hr' Hw' _ _.
    apply bus_process_quiet; congruence. }
  unfold runnable.
  destruct (bus_runnable c r), (lock_runnable r f s0); try destruct b; cbn;
    rewrite ?(bus_process_quiet s Hr Hw), ?Hb; reflexivity.
Qed.

Ltac phase lk :=
  first [ left; solve [repeat split; try lia; fin lk]
        | right; left; solve [repeat split; try lia; fin lk]
        | right; right; solve [repeat split; try lia; fin lk] ].

Ltac open_round :=
  unfold int_delta, ext_delta, delta_cycle, runnable, bus_runnable,
    lock_runnable, evaluate, update, run_process, locking_process,
    locked_write, wave_started.

Lemma int_delta_attempt T lk w s t :
  attempt T lk w s -> next_internal s = Some t ->
  attempt T lk w (int_delta t s).
Proof.
  unfold attempt, next_internal, LOCK_TIME_NS.
  intros (He & Hr & Hp & Hn & [(Hl & Hv & Ht & Hk & Hw)
                              |[(Hl & Ht & Hk & Hw)|(Hl & Hv & Ht & Hk & Hw)]]);
    rewrite ?Hv, ?Hl; intros Hi; [ | | discriminate].
  - injection Hi as <-. open_round.
    cases; zb; try lia; repeat split; try lia; phase lk.
  - open_round.
    destruct (start_locking_event s) eqn:Hv; injection Hi as <-;
      cases; zb; try lia; repeat split; try lia; phase lk.
Qed.

Lemma settle_attempt n T lk w te s :
  attempt T lk w s -> attempt T lk w (settle n te s).
Proof.
  revert s. induction n as [|n IH]; intros s Ha; cbn; [assumption|].
  destruct (next_internal s) as [t|] eqn:E; [|assumption].
  destruct (t <? te); [|assumption].
  apply IH, (int_delta_attempt T lk w s t Ha E).
Qed.

Lemma ext_delta_attempt T lk w e s :
  attempt T lk w s -> quiet e -> settled (s_time e) s ->
  attempt T lk w (ext_delta e s).
Proof.
  unfold quiet, settled, next_internal. intros Ha (Hqr & Hqw) Hs.
  unfold ext_delta, delta_cycle. rewrite Hqr, Hqw.
  rewrite evaluate_quiet by reflexivity.
  revert Ha Hs. unfold attempt, LOCK_TIME_NS.
  intros (He & Hr & Hp & Hn & [(Hl & Hv & Ht & Hk & Hw)
                              |[(Hl & Ht & Hk & Hw)|(Hl & Hv & Ht & Hk & Hw)]]);
    rewrite ?Hv, ?Hl; intros Hs;
    unfold lock_runnable, update, locking_process, locked_write, wave_started.
  - cases; zb; try lia; repeat split; try lia; phase lk.
  - destruct (start_locking_event s) eqn:Hv;
      cases; zb; try lia; repeat split; try lia; phase lk.
  - cases; zb; try lia; repeat split; try lia; phase lk.
Qed.

Lemma step_attempt T lk w e s :
  attempt T lk w s -> quiet e -> attempt T lk w (step e s).
Proof.
  intros Ha Hq. unfold step.
  apply ext_delta_attempt; [apply settle_attempt, Ha | exact Hq | apply settle_settled].
Qed.

Lemma run_attempt T lk w l s :
  attempt T lk w s -> Forall quiet l -> attempt T lk w (run l s).
Proof.
  revert s. induction l as [|e l IH]; intros s Ha Hl; [exact Ha|].
  inversion Hl; subst.
  change (run (e :: l) s) with (run l (step e s)).
  apply IH; [apply step_attempt; assumption | assumption].
Qed.

(** ** Start and abort of a lock attempt *)

Lemma sc_uint_32_ctrl : sc_uint 32 PLL_REG_CTRL_ADDR = PLL_REG_CTRL_ADDR.
Proof. reflexivity. Qed.

Lemma sc_uint_32_1 : sc_uint 32 1 = 1.
Proof. reflexivity. Qed.

Lemma step_enable T bf s :
  at_rest s -> now s <= T ->
  attempt T (locked s) (wave s) (step (bus_write T PLL_REG_CTRL_ADDR 1 bf) s).
Proof.
  intros Hr Hn. unfold step. rewrite (settle_at_rest _ _ _ Hr).
  destruct Hr as (Hl & Hv & Hp).
  destruct s as [nw rs we ad dt m n od en ev lk pd dr l lg wv].
  cbn in Hl, Hv, Hp, Hn. subst l ev pd.
  unfold attempt, bus_write, LOCK_TIME_NS. open_round.
  unfold bus_process, notify, locked_write.
  cbn [s_time s_clk_pos s_reset s_bus_we s_bus_addr s_bus_wdata s_bus_first].
  rewrite sc_uint_32_ctrl, sc_uint_32_1.
  destruct rs, bf, en, lk; cbn; cases; repeat split; try lia;
    unfold LOCK_TIME_NS;
    first [ left; solve [repeat split; try lia; eq_z]
          | right; left; solve [repeat split; try lia; eq_z] ].
Qed.

Lemma runnable_bus_only c r f b s d :
  lp s = AtTimedWait d -> now s < d -> bus_runnable c r = true ->
  runnable c r f b s = [BusProcess].
Proof.
  intros Hl Hn Hb. unfold runnable, lock_runnable. rewrite Hb, Hl.
  destruct (d <=? now s) eqn:E; [zb; lia | reflexivity].
Qed.

Lemma delta_cycle_reset c r f s d :
  reset s = true -> bus_runnable c r = true ->
  lp s = AtTimedWait d -> now s < d ->
  locked s = false -> locked_pending s = None ->
  disabled (delta_cycle c r f s) /\ wave (delta_cycle c r f s) = wave s /\
  lp (delta_cycle c r f s) = AtTimedWait d.
Proof.
  intros Hr Hb Hl Hn Hk Hp. unfold delta_cycle.
  rewrite (runnable_bus_only c r _ f s d Hl Hn Hb).
  unfold disabled, evaluate, update, run_process, bus_process.
  cases; repeat split; auto.
Qed.

Lemma delta_cycle_ctrl_off c r f s d :
  reset s = false -> bus_we s = true -> bus_addr s = PLL_REG_CTRL_ADDR ->
  bus_wdata s <> 1 -> bus_runnable c r = true ->
  lp s = AtTimedWait d -> now s < d ->
  locked s = false -> locked_pending s = None ->
  disabled (delta_cycle c r f s) /\ wave (delta_cycle c r f s) = wave s /\
  lp (delta_cycle c r f s) = AtTimedWait d.
Proof.
  intros Hr Hwe Ha Hd Hb Hl Hn Hk Hp. unfold delta_cycle.
  rewrite (runnable_bus_only c r _ f s d Hl Hn Hb).
  unfold disabled, evaluate, update, run_process, bus_process, notify, locked_write.
  cases; zb; repeat split; auto; congruence.
Qed.

Lemma step_disabling T lk w x s :
  attempt T lk w s -> disabling x ->
  T < s_time x < T + LOCK_TIME_NS -> now s <= s_time x ->
  disabled (step x s) /\ wave (step x s) = wave_started T lk w /\
  lp (step x s) = AtTimedWait (T + LOCK_TIME_NS).
Proof.
  intros Ha Hx Ht Hn. unfold step.
  pose proof (now_settle SETTLE_FUEL (s_time x) s) as Hns.
  pose proof (settle_settled (s_time x) s) as Hs.
  pose proof (settle_attempt SETTLE_FUEL T lk w (s_time x) s Ha) as Ha'.
  set (s1 := settle SETTLE_FUEL (s_time x) s) in *. clearbody s1. clear Ha.
  unfold settled, next_internal in Hs.
  revert Ha' Hs. unfold attempt.
  intros (He & Hr & Hp & Hn1 & [(Hl & Hv & Hn2 & Hk & Hw)
                               |[(Hl & Hn2 & Hk & Hw)|(Hl & Hv & Hn2 & Hk & Hw)]]);
    rewrite ?Hv, ?Hl; intros Hs; try lia.
  rewrite <- Hw. unfold ext_delta. rewrite Hr.
  set (s0 := set_inputs _ _ _ _ _).
  assert (Hn0 : now s0 < T + LOCK_TIME_NS) by (cbn; lia).
  change (wave s1) with (wave s0).
  destruct Hx as [Hx|(Hx1 & Hx2 & Hx3 & Hx4 & Hx5)].
  - apply delta_cycle_reset; try assumption.
    unfold bus_runnable. rewrite Hx. apply orb_true_r.
  - apply delta_cycle_ctrl_off; try assumption.
    rewrite Hx2. reflexivity.
Qed.

(** ** The end of a run *)

Lemma run_app l1 l2 s : run (l1 ++ l2) s = run l2 (run l1 s).
Proof. unfold run. apply fold_left_app. Qed.

Lemma attempt_locked T lk w te s :
  attempt T lk w s -> settled te s -> T + LOCK_TIME_NS < te ->
  lp s = AtWait /\ locked s = true /\
  wave s = (T + LOCK_TIME_NS, true) :: wave_started T lk w.
Proof.
  unfold attempt, settled, next_internal, LOCK_TIME_NS.
  intros (He & Hr & Hp & Hn & [(Hl & Hv & Ht & Hk & Hw)
                              |[(Hl & Ht & Hk & Hw)|(Hl & Hv & Ht & Hk & Hw)]]);
    rewrite ?Hv, ?Hl; intros Hs Hte.
  - lia.
  - destruct (start_locking_event s); lia.
  - auto.
Qed.

Lemma attempt_started T lk w te s :
  attempt T lk w s -> settled te s -> T < te ->
  wave s = wave_started T lk w \/
  wave s = (T + LOCK_TIME_NS, true) :: wave_started T lk w.
Proof.
  unfold attempt, settled, next_internal.
  intros (He & Hr & Hp & Hn & [(Hl & Hv & Ht & Hk & Hw)
                              |[(Hl & Ht & Hk & Hw)|(Hl & Hv & Ht & Hk & Hw)]]);
    rewrite ?Hv, ?Hl; intros Hs Hte; auto. lia.
Qed.

Lemma attempt_wave T lk w s :
  attempt T lk w s ->
  wave s = w \/ wave s = wave_started T lk w \/
  wave s = (T + LOCK_TIME_NS, true) :: wave_started T lk w.
Proof.
  intros (_ & _ & _ & _ & [(_ & _ & _ & _ & Hw)
                          |[(_ & _ & _ & Hw)|(_ & _ & _ & _ & Hw)]]); auto.
Qed.

Lemma init_at_rest : at_rest init /\ disabled init /\ wave init = [] /\ now init = 0.
Proof. repeat split. Qed.

(** Before the first enabling write nothing moves the line. *)
Lemma run_before_enable pre B :
  0 <= B ->
  no_enable false pre -> Forall (fun e => s_time e <= B) pre ->
  at_rest (run pre init) /\ locked (run pre init) = false /\
  wave (run pre init) = [] /\ now (run pre init) <= B.
Proof.
  intros HB H1 H2.
  destruct init_at_rest as (_ & Hd & Hw & Hn).
  destruct (run_disabled pre init Hd H1) as ((He & Hv & Hk & Hp) & Hw' & Hl).
  assert (Hn' : now init <= B) by lia.
  pose proof (now_run pre init B Hn' H2) as Hnow.
  repeat split; auto; try lia; try congruence.
  destruct Hl as [->| ->]; reflexivity.
Qed.

(** The run of a lock attempt that nothing disturbs. *)
Lemma run_lock_sequence s post T tend bf :
  at_rest s -> now s <= T -> Forall quiet post ->
  let f := run_until tend (bus_write T PLL_REG_CTRL_ADDR 1 bf :: post) s in
  attempt T (locked s) (wave s) f /\ settled (tend + 1) f.
Proof.
  intros Hr Hn Hq f. subst f. unfold run_until.
  split; [|apply settle_settled].
  apply settle_attempt.
  change (run (bus_write T PLL_REG_CTRL_ADDR 1 bf :: post) s)
    with (run post (step (bus_write T PLL_REG_CTRL_ADDR 1 bf) s)).
  apply run_attempt; [apply step_enable; assumption | exact Hq].
Qed.

(** ** Timing of the lock *)

(** C1. After any stimulus that holds no enabling write (resets, the writes of
    N = 1, M = 32 and OD = 1, idle cycles), let the write of 1 to CTRL be
    sampled at instant [T] and let the environment stay quiet afterwards (no
    write, no reset).  Then the traced [locked] line is low at every instant
    before [T + 500], and if the simulation reaches [T + 500] its only change
    of value is the rise at exactly [T + 500]. *)
Theorem lock_asserted_after_500ns :
  forall (pre post : list stim) (T tend : Z) (bf : bool),
    0 <= T ->
    no_enable false pre -> Forall (fun e => s_time e <= T) pre ->
    Forall quiet post ->
    let f := run_until tend
               (pre ++ bus_write T PLL_REG_CTRL_ADDR 1 bf :: post) init in
    (forall t, t < T + LOCK_TIME_NS -> locked_at (wave f) t = false) /\
    (T + LOCK_TIME_NS <= tend ->
       wave f = [(T + LOCK_TIME_NS, true)] /\ locked f = true /\
       locked_at (wave f) (T + LOCK_TIME_NS) = true).
Proof.
  intros pre post T tend bf HT Hpre Hpt Hpost f. subst f.
  destruct (run_before_enable pre T HT Hpre Hpt) as (Hr & Hk & Hw & Hn).
  unfold run_until. rewrite run_app.
  destruct (run_lock_sequence (run pre init) post T tend bf Hr Hn Hpost)
    as (Ha & Hs).
  unfold run_until in Ha, Hs. rewrite Hk, Hw in Ha.
  set (f := settle _ _ _) in *. clearbody f.
  split.
  - intros t Ht.
    destruct (attempt_wave _ _ _ _ Ha) as [E|[E|E]]; rewrite E; cbn;
      [reflexivity | reflexivity |].
    destruct (T + LOCK_TIME_NS <=? t) eqn:L; [zb; lia | reflexivity].
  - intros Hte.
    assert (Hlt : T + LOCK_TIME_NS < tend + 1) by lia.
    destruct (attempt_locked _ _ _ _ _ Ha Hs Hlt) as (_ & Hk' & Hw').
    rewrite Hw'. cbn. rewrite Z.leb_refl. auto.
Qed.

Lemma lock_asserted_after_500ns_witness :
  wave (run_until 849 run_test init) = [(600, true)] /\
  locked_at (wave (run_until 849 run_test init)) 599 = false.
Proof.
  assert (Hpre : no_enable false run_test_pre) by (cbn; intuition reflexivity).
  assert (Hpt : Forall (fun e => s_time e <= 100) run_test_pre)
    by (repeat (apply Forall_cons; [vm_compute; discriminate |]);
        apply Forall_nil).
  assert (Hpost : Forall quiet run_test_post)
    by (repeat (apply Forall_cons; [split; reflexivity |]); apply Forall_nil).
  destruct (lock_asserted_after_500ns run_test_pre run_test_post 100 849 true
              ltac:(lia) Hpre Hpt Hpost) as [H1 H2].
  split.
  - exact (proj1 (H2 ltac:(unfold LOCK_TIME_NS; lia))).
  - apply H1. unfold LOCK_TIME_NS. lia.
Defined.

(** C10. Let the thread wait at [wait()] with the [locked] line high, and let a
    write of 1 to CTRL be sampled at instant [T] with a quiet environment
    (reset low, no write) afterwards.  Then the lock sequence restarts: the
    line is low from [T] until [T + 500], and the waveform gains exactly the
    fall at [T] and the rise at [T + 500]. *)
Theorem reenable_restarts_lock :
  forall (s : sim) (post : list stim) (T tend : Z) (bf : bool),
    at_rest s -> locked s = true -> now s <= T ->
    Forall quiet post ->
    let f := run_until tend (bus_write T PLL_REG_CTRL_ADDR 1 bf :: post) s in
    (T <= tend ->
       forall t, T <= t < T + LOCK_TIME_NS -> locked_at (wave f) t = false) /\
    (T + LOCK_TIME_NS <= tend ->
       wave f = (T + LOCK_TIME_NS, true) :: (T, false) :: wave s /\
       locked f = true).
Proof.
  intros s post T tend bf Hr Hk Hn Hq f.
  destruct (run_lock_sequence s post T tend bf Hr Hn Hq) as (Ha & Hs).
  fold f in Ha, Hs. clearbody f. rewrite Hk in Ha.
  split.
  - intros Hte t Ht.
    assert (Hlt : T < tend + 1) by lia.
    destruct (attempt_started _ _ _ _ _ Ha Hs Hlt) as [E|E]; rewrite E; cbn.
    + destruct (T <=? t) eqn:L; [reflexivity | zb; lia].
    + destruct (T + LOCK_TIME_NS <=? t) eqn:L1; [zb; lia|].
      destruct (T <=? t) eqn:L2; [reflexivity | zb; lia].
  - intros Hte.
    assert (Hlt : T + LOCK_TIME_NS < tend + 1) by lia.
    destruct (attempt_locked _ _ _ _ _ Ha Hs Hlt) as (_ & Hk' & Hw').
    split; assumption.
Qed.

Lemma reenable_restarts_lock_witness :
  wave (run_until 1500 [bus_write 900 PLL_REG_CTRL_ADDR 1 true]
          (run_until 849 run_test init))
  = [(1400, true); (900, false); (600, true)].
Proof.
  assert (Hr : at_rest (run_until 849 run_test init)) by (repeat split).
  assert (Hk : locked (run_until 849 run_test init) = true) by reflexivity.
  assert (Hn : now (run_until 849 run_test init) <= 900)
    by (vm_compute; discriminate).
  destruct (reenable_restarts_lock (run_until 849 run_test init) [] 900 1500
              true Hr Hk Hn (Forall_nil _)) as [_ H].
  exact (proj1 (H ltac:(unfold LOCK_TIME_NS; lia))).
Defined.

(** ** Aborting a lock attempt *)

(** The run of a lock attempt that a reset or a disabling write cuts short. *)
Lemma run_aborted s mid x rest T tend bf :
  at_rest s -> now s <= T ->
  Forall quiet mid -> Forall (fun e => s_time e <= s_time x) mid ->
  T < s_time x < T + LOCK_TIME_NS -> disabling x ->
  no_enable (s_reset x) rest ->
  let s1 := run (bus_write T PLL_REG_CTRL_ADDR 1 bf :: mid ++ [x]) s in
  let f := run_until tend
             (bus_write T PLL_REG_CTRL_ADDR 1 bf :: mid ++ x :: rest) s in
  (disabled s1 /\ wave s1 = wave_started T (locked s) (wave s)) /\
  (disabled f /\ wave f = wave_started T (locked s) (wave s)) /\
  (T + LOCK_TIME_NS <= tend -> lp f = AtWait).
Proof.
  intros Hr Hn Hq Hmt Ht Hx Hrest s1 f.
  set (e := bus_write T PLL_REG_CTRL_ADDR 1 bf) in *.
  pose proof (step_enable T bf s Hr Hn) as Ha0. fold e in Ha0.
  pose proof (run_attempt _ _ _ mid _ Ha0 Hq) as Ha1.
  assert (Hn0 : now (step e s) <= s_time x).
  { pose proof (now_step e s). cbn [s_time e bus_write] in H. lia. }
  pose proof (now_run mid (step e s) (s_time x) Hn0 Hmt) as Hn1.
  destruct (step_disabling T (locked s) (wave s) x _ Ha1 Hx Ht (proj2 Hn1))
    as (Hd2 & Hw2 & Hl2).
  assert (E1 : s1 = step x (run mid (step e s))).
  { subst s1. change (run (e :: mid ++ [x]) s) with (run (mid ++ [x]) (step e s)).
    rewrite run_app. reflexivity. }
  assert (E2 : f = settle SETTLE_FUEL (tend + 1) (run rest s1)).
  { subst f. unfold run_until. rewrite E1.
    change (run (e :: mid ++ x :: rest) s)
      with (run (mid ++ x :: rest) (step e s)).
    rewrite run_app. reflexivity. }
  rewrite <- E1 in Hd2, Hw2, Hl2. clearbody s1.
  split; [split; assumption|].
  assert (Hrest' : no_enable (reset s1) rest)
    by (rewrite E1, reset_step; exact Hrest).
  destruct (run_disabled rest s1 Hd2 Hrest') as (Hd3 & Hw3 & Hl3).
  destruct (settle_disabled SETTLE_FUEL (tend + 1) _ Hd3) as (Hd4 & Hw4 & Hl4).
  rewrite <- E2 in Hd4, Hw4, Hl4.
  split; [split; [assumption | congruence]|].
  intros Hte.
  assert (Hl : lp f = AtTimedWait (T + LOCK_TIME_NS) \/ lp f = AtWait).
  { destruct Hl4 as [->|]; [|auto]. destruct Hl3 as [->|]; [|auto]. auto. }
  destruct Hl as [Hl|Hl]; [|exact Hl].
  pose proof (settle_settled (tend + 1) (run rest s1)) as Hs.
  rewrite <- E2 in Hs. unfold settled, next_internal in Hs.
  destruct Hd4 as (_ & Hv & _). rewrite Hv, Hl in Hs. lia.
Qed.



(** C4. Let a lock attempt start with the write of 1 to CTRL sampled at [T],
    the environment stay quiet until a write of a value other than 1 to CTRL
    is sampled at an instant strictly between [T] and [T + 500], and no
    enabling write follow.  Then the line never rises: the waveform of the
    whole run holds no change after the drive to low at [T], and once the
    500 ns have elapsed the thread is back at [wait()] with nothing pending. *)
Theorem disable_aborts_lock :
  forall (s : sim) (mid rest : list stim) (T T1 d tend : Z) (bf bf1 : bool),
    at_rest s -> now s <= T ->
    Forall quiet mid -> Forall (fun e => s_time e <= T1) mid ->
    T < T1 < T + LOCK_TIME_NS -> sc_uint 32 d <> 1 ->
    no_enable false rest ->
    let enable := bus_write T PLL_REG_CTRL_ADDR 1 bf in
    let disable := bus_write T1 PLL_REG_CTRL_ADDR d bf1 in
    let f := run_until tend (enable :: mid ++ disable :: rest) s in
    pll_enable f = false /\ locked f = false /\
    wave f = wave_started T (locked s) (wave s) /\
    (T + LOCK_TIME_NS <= tend -> at_rest f).
Proof.
  intros s mid rest T T1 d tend bf bf1 Hr Hn Hq Hmt Ht Hd Hrest enable disable f.
  assert (Hdis : disabling disable)
    by (right; repeat split; try reflexivity; exact Hd).
  destruct (run_aborted s mid disable rest T tend bf Hr Hn Hq Hmt Ht Hdis Hrest)
    as (_ & ((He & Hv & Hk & Hp) & Hw) & Hl).
  repeat split; try assumption. apply Hl. assumption.
Qed.

Lemma disable_aborts_lock_witness :
  let f := run_until 2000
             (bus_write 100 PLL_REG_CTRL_ADDR 1 true ::
              [edge 11 false false 0 0] ++
              bus_write 300 PLL_REG_CTRL_ADDR 0 true ::
              [edge 31 false false 0 0]) init in
  wave f = [] /\ lp f = AtWait.
Proof.
  assert (Hr : at_rest init) by (repeat split).
  assert (Hn : now init <= 100) by (vm_compute; discriminate).
  assert (Hq : Forall quiet [edge 11 false false 0 0])
    by (repeat constructor).
  assert (Hmt : Forall (fun e => s_time e <= 300) [edge 11 false false 0 0])
    by (apply Forall_cons; [vm_compute; discriminate | apply Forall_nil]).
  assert (Ht : 100 < 300 < 100 + LOCK_TIME_NS) by (split; reflexivity).
  assert (Hd : sc_uint 32 0 <> 1) by (vm_compute; discriminate).
  assert (Hrest : no_enable false [edge 31 false false 0 0])
    by (cbn; intuition reflexivity).
  destruct (disable_aborts_lock init _ [edge 31 false false 0 0] 100 300 0 2000
              true true Hr Hn Hq Hmt Ht Hd Hrest) as (_ & _ & Hw & Hl).
  split; [exact Hw | apply Hl; vm_compute; discriminate].
Defined.

(** ** Construction *)

(** C7. At the end of construction the three divider registers and the enable
    flag hold the defined values 0, 0, 0 and false, whatever the memory held
    before: the registers through the default constructor of [sc_uint<8>],
    the flag through the assignment in the body of [SC_CTOR].  The
    initialization phase, which runs before time zero, leaves them so. *)
Theorem construction_defaults :
  forall r : raw_members,
    SC_CTOR r = reset_config /\
    config_of (elaborate r) = reset_config /\
    config_of (initialize r) = reset_config /\
    now (initialize r) = 0.
Proof.
  intros [m n od en]. repeat split.
Qed.

(** ** The configuration registers *)

Lemma bus_process_config_fun s s' :
  reset s = reset s' -> bus_we s = bus_we s' ->
  bus_addr s = bus_addr s' -> bus_wdata s = bus_wdata s' ->
  config_of s = config_of s' ->
  config_of (bus_process s) = config_of (bus_process s').
Proof.
  destruct s as [nw rs we ad dt m n od en ev lk pd dr l lg wv].
  destruct s' as [nw' rs' we' ad' dt' m' n' od' en' ev' lk' pd' dr' l' lg' wv'].
  unfold config_of. cbn. intros -> -> -> -> Hc.
  injection Hc as -> -> -> ->.
  unfold bus_process. cbn.
  destruct rs'; [reflexivity|]. destruct we'; [|reflexivity].
  repeat (match goal with
          | |- context [if ?b then _ else _] => destruct b
          end; cbn; try reflexivity).
Qed.

Lemma evaluate_config c r f b s0 s :
  config_of (evaluate (runnable c r f b s0) s) =
  if bus_runnable c r then config_of (bus_process s) else config_of s.
Proof.
  unfold runnable.
  destruct (bus_runnable c r), (lock_runnable r f s0); try destruct b; cbn;
    rewrite ?locking_process_config; try reflexivity.
  pose proof (locking_process_env s) as H. unfold env_of in H.
  injection H as _ H1 H2 H3 H4.
  apply bus_process_config_fun; auto using locking_process_config.
Qed.

Lemma config_delta_cycle c r b s :
  config_of (delta_cycle c r b s) =
  if bus_runnable c r then config_of (bus_process s) else config_of s.
Proof.
  unfold delta_cycle. rewrite update_config, evaluate_config.
  destruct (bus_runnable c r); [|reflexivity].
  apply bus_process_config_fun; reflexivity.
Qed.

Lemma config_int_delta t s : config_of (int_delta t s) = config_of s.
Proof. unfold int_delta. rewrite config_delta_cycle. reflexivity. Qed.

Lemma config_settle n te s : config_of (settle n te s) = config_of s.
Proof.
  revert s. induction n as [|n IH]; intros s; cbn; [reflexivity|].
  destruct (next_internal s) as [t|]; [|reflexivity].
  destruct (t <? te); [|reflexivity].
  rewrite IH. apply config_int_delta.
Qed.

Lemma bus_process_config_reset s :
  reset s = true -> config_of (bus_process s) = reset_config.
Proof. intros H. unfold bus_process. rewrite H. reflexivity. Qed.

(** With reset high the method does the same whatever the bus carries. *)
Lemma bus_process_reset_ignores_bus s we a d :
  bus_process (set_inputs true we a d s) =
  set_inputs true we a d (bus_process (set_inputs true (bus_we s) (bus_addr s)
                                         (bus_wdata s) s)).
Proof. reflexivity. Qed.

Lemma step_reset_config e s :
  s_reset e = true ->
  bus_runnable (s_clk_pos e) (xorb (reset s) (s_reset e)) = true ->
  config_of (step e s) = reset_config.
Proof.
  intros Hr Hb. unfold step, ext_delta.
  rewrite config_delta_cycle, reset_settle, Hb.
  apply bus_process_config_reset. exact Hr.
Qed.

Lemma step_no_decode_config e s :
  decodes (reset s) e = false -> config_of s = reset_config ->
  config_of (step e s) = reset_config.
Proof.
  unfold decodes. intros Hd Hc. unfold step, ext_delta.
  rewrite config_delta_cycle, reset_settle.
  destruct (bus_runnable _ _); cbn in Hd.
  - destruct (s_reset e) eqn:Hr; cbn in Hd.
    + apply bus_process_config_reset. reflexivity.
    + rewrite bus_process_quiet; [|reflexivity | exact Hd].
      change (config_of (settle SETTLE_FUEL (s_time e) s) = reset_config).
      rewrite config_settle. exact Hc.
  - change (config_of (settle SETTLE_FUEL (s_time e) s) = reset_config).
    rewrite config_settle. exact Hc.
Qed.

Lemma run_no_decode_config l s :
  no_decode (reset s) l -> config_of s = reset_config ->
  config_of (run l s) = reset_config.
Proof.
  revert s. induction l as [|e l IH]; intros s Hl Hc; [exact Hc|].
  destruct Hl as (H1 & H2).
  change (run (e :: l) s) with (run l (step e s)).
  apply IH; [rewrite reset_step; exact H2 | apply step_no_decode_config; assumption].
Qed.

(** C2. Whenever [bus_process] is invoked with reset reading high, it leaves
    the registers and the enable flag at 0, 0, 0 and false, notifies nothing,
    writes no signal, and does the same whatever the write strobe, address and
    data carry: the only other trace of the invocation are its four fixed
    console lines.  And once an invocation with reset high has happened, the
    four members stay at 0, 0, 0, false through every stimulus, reset released
    or not, until [bus_process] decodes a bus write. *)
Theorem reset_has_priority :
  (forall s : sim,
     reset s = true ->
     config_of (bus_process s) = reset_config /\
     start_locking_event (bus_process s) = start_locking_event s /\
     locked (bus_process s) = locked s /\
     locked_pending (bus_process s) = locked_pending s /\
     locked_drivers (bus_process s) = locked_drivers s /\
     lp (bus_process s) = lp s /\
     wave (bus_process s) = wave s /\
     env_of (bus_process s) = env_of s /\
     log (bus_process s) =
       log s ++ [LogRegWrite (now s) 3 0; LogRegWrite (now s) 2 0;
                 LogRegWrite (now s) 1 0; LogRegWrite (now s) 0 0] /\
     forall we a d,
       bus_process (set_inputs true we a d s) =
       set_inputs true we a d (bus_process s)) /\
  (forall (s : sim) (e : stim) (l : list stim),
     s_reset e = true ->
     bus_runnable (s_clk_pos e) (xorb (reset s) (s_reset e)) = true ->
     no_decode true l ->
     config_of (run (e :: l) s) = reset_config).
Proof.
  split.
  - intros s Hr. unfold bus_process. rewrite Hr.
    repeat split.
  - intros s e l Hr Hb Hl.
    change (run (e :: l) s) with (run l (step e s)).
    apply run_no_decode_config.
    + rewrite reset_step, Hr. exact Hl.
    + apply step_reset_config; assumption.
Qed.

Lemma reset_has_priority_witness :
  config_of (bus_process (set_inputs true true PLL_REG_CTRL_ADDR 1
                            (run_until 849 run_test init))) = reset_config /\
  config_of (run (reset_at 900 ::
                  [edge 91 true true PLL_REG_M_ADDR 7;
                   after_edge 91 false false PLL_REG_M_ADDR 7;
                   edge 92 false false PLL_REG_M_ADDR 7])
               (run_until 849 run_test init)) = reset_config.
Proof.
  destruct reset_has_priority as [H1 H2].
  split.
  - exact (proj1 (H1 (set_inputs true true PLL_REG_CTRL_ADDR 1
                        (run_until 849 run_test init)) eq_refl)).
  - apply H2; [reflexivity | reflexivity | cbn; intuition reflexivity].
Defined.

(** ** Width of the divider registers *)

Lemma sc_uint_small w v : 0 <= v < 2 ^ w -> sc_uint w v = v.
Proof. intros H. unfold sc_uint. apply Z.mod_small. exact H. Qed.

Lemma config_step_bus_write t a d bf s :
  config_of (step (bus_write t a d bf) s) =
  config_of (bus_process
               (set_inputs false true (sc_uint 32 a) (sc_uint 32 d)
                  (settle SETTLE_FUEL t s))).
Proof.
  unfold step, ext_delta. rewrite config_delta_cycle.
  cbn [bus_write s_time s_clk_pos s_reset s_bus_we s_bus_addr s_bus_wdata
       bus_runnable orb].
  apply bus_process_config_fun; reflexivity.
Qed.

(** C9, as the code has it.  A write of a 32-bit value [d] sampled at a clock
    edge with reset low stores the low 8 bits of [d], that is [d mod 256], in
    the register selected by offset 0x00 (N), 0x04 (M) or 0x08 (OD); the
    register holds [d] itself exactly when [d < 256]. *)
Theorem divider_write_keeps_low_byte :
  forall (s : sim) (t d : Z) (bf : bool),
    0 <= d < 2 ^ 32 ->
    reg_n (step (bus_write t PLL_REG_N_ADDR d bf) s) = d mod 2 ^ 8 /\
    reg_m (step (bus_write t PLL_REG_M_ADDR d bf) s) = d mod 2 ^ 8 /\
    reg_od (step (bus_write t PLL_REG_OD_ADDR d bf) s) = d mod 2 ^ 8 /\
    (d mod 2 ^ 8 = d <-> d < 2 ^ 8).
Proof.
  intros s t d bf Hd.
  pose proof (config_step_bus_write t PLL_REG_N_ADDR d bf s) as Hn.
  pose proof (config_step_bus_write t PLL_REG_M_ADDR d bf s) as Hm.
  pose proof (config_step_bus_write t PLL_REG_OD_ADDR d bf s) as Ho.
  rewrite (sc_uint_small 32 d Hd) in Hn, Hm, Ho.
  unfold config_of, bus_process in Hn, Hm, Ho. cbn in Hn, Hm, Ho.
  injection Hn as _ Hn _ _. injection Hm as Hm _ _ _. injection Ho as _ _ Ho _.
  repeat split; try assumption.
  - intros H. rewrite <- H. apply Z.mod_pos_bound. reflexivity.
  - intros H. apply Z.mod_small. lia.
Qed.

Lemma divider_write_keeps_low_byte_witness :
  reg_n (step (bus_write 70 PLL_REG_N_ADDR 0x1FF true) init) = 0xFF.
Proof.
  exact (proj1 (divider_write_keeps_low_byte init 70 0x1FF true
                  ltac:(split; [discriminate | reflexivity]))).
Defined.

(** C9 as stated fails: the value 256 written to offset 0x00 leaves 0 in the
    N register, not 256. *)
Lemma divider_write_not_verbatim :
  let d := 256 in
  0 <= d < 2 ^ 32 /\
  reg_n (step (bus_write 70 PLL_REG_N_ADDR d true) init) <> d.
Proof. cbn. split; [split; [discriminate | reflexivity] | discriminate]. Qed.

(** ** Drivers of the [locked] signal *)

(** C5, evaluated on the code.  With the device locked by [run_test], a write
    of 0 to CTRL sampled at 900 ns makes [bus_process] itself write the
    [locked] signal: it becomes a second driver next to [locking_process], the
    line falls in that very round, no event is notified and the thread is not
    resumed. *)
Theorem disable_write_drives_locked :
  let s := run_until 849 run_test init in
  let f := step (bus_write 900 PLL_REG_CTRL_ADDR 0 true) s in
  locked_drivers s = [LockingProcess] /\
  locked_drivers f = [LockingProcess; BusProcess] /\
  pll_enable f = false /\ start_locking_event f = false /\
  wave f = (900, false) :: wave s /\
  log f = log s ++ [LogRegWrite 900 3 0].
Proof. vm_compute. repeat split. Qed.

(** ** The frequency diagnostic *)

Lemma f_out_zero_divisor m n od :
  n * od = 0 -> 0 <= m ->
  f_out_mhz m n od = if m =? 0 then NaN else PosInf.
Proof.
  intros H Hm. unfold f_out_mhz. rewrite H.
  unfold ddiv, dmul, F_REF_MHZ, double_of_Z, is_zero, is_neg. cbn.
  destruct m as [|p|p]; [reflexivity | reflexivity | lia].
Qed.

(** C6, as the code has it.  When the 500 ns wait ends with the enable flag
    still set, the thread writes true to [locked], then prints the period
    computed as [1000 / (25 * M / (N * OD))] with no test of the divisor.
    With [N * OD = 0] the quotient is an IEEE special value (infinite, or
    not-a-number when [M] is 0 too), the printed period is 0 or not-a-number,
    and the write of [locked] is the same as for any other register values. *)
Theorem lock_diagnostic_unguarded :
  forall (s : sim) (d : Z),
    lp s = AtTimedWait d -> pll_enable s = true ->
    locked_pending (locking_process s) = Some true /\
    lp (locking_process s) = AtWait /\
    log (locking_process s) =
      log s ++ [LogElapsed (now s);
                LogLocked (now s) (period_ns (reg_m s) (reg_n s) (reg_od s))] /\
    (reg_n s * reg_od s = 0 -> 0 <= reg_m s ->
       f_out_mhz (reg_m s) (reg_n s) (reg_od s) =
         (if reg_m s =? 0 then NaN else PosInf) /\
       period_ns (reg_m s) (reg_n s) (reg_od s) =
         (if reg_m s =? 0 then NaN else Finite 0)).
Proof.
  intros s d Hl He. unfold locking_process. rewrite Hl, He.
  repeat split.
  - apply f_out_zero_divisor; assumption.
  - unfold period_ns. rewrite f_out_zero_divisor by assumption.
    destruct (reg_m s =? 0); reflexivity.
Qed.

Lemma lock_diagnostic_unguarded_witness :
  let s := run_until 519 lock_without_dividers init in
  locked_pending (locking_process s) = Some true /\
  period_ns (reg_m s) (reg_n s) (reg_od s) = Finite 0.
Proof.
  destruct (lock_diagnostic_unguarded (run_until 519 lock_without_dividers init)
              520 eq_refl eq_refl) as (H1 & _ & _ & H2).
  split; [exact H1 |].
  exact (proj2 (H2 eq_refl ltac:(vm_compute; discriminate))).
Defined.

(** C6 as stated fails: with M = 32 written and N, OD left at 0, the lock
    completes at 520 ns and the printed period is the result of the division
    by the zero product [N * OD]; no branch skipped it. *)
Lemma zero_divisor_reaches_division :
  let f := run_until 1000 lock_without_dividers init in
  reg_n f * reg_od f = 0 /\ locked f = true /\
  In (LogLocked 520
        (ddiv (double_of_Z 1000)
           (ddiv (dmul F_REF_MHZ (double_of_Z 32)) (double_of_Z 0))))
     (log f).
Proof. vm_compute. intuition. Qed.

(** ** Notification of the start event *)

(** C8.  While a notification of the start event is pending, notifying again
    changes nothing: the state is the one before the second call.  With the
    thread suspended at [wait()], whatever else triggers in the next round,
    the thread is resumed exactly once in it, and after a round of the
    module's own the notification is consumed. *)
Theorem notify_twice_wakes_once :
  forall (s : sim) (c r b : bool),
    start_locking_event s = true -> lp s = AtWait ->
    notify s = s /\
    wakeups (runnable c r (start_locking_event (notify s)) b (notify s)) = 1%nat /\
    start_locking_event (int_delta (now s) (notify s)) = false.
Proof.
  intros s c r b Hv Hl. split; [|split].
  - destruct s. cbn in Hv. subst. reflexivity.
  - unfold runnable, lock_runnable. cbn. rewrite Hl, orb_true_r.
    destruct (bus_runnable c r), b; reflexivity.
  - apply int_delta_flag.
Qed.

Lemma notify_twice_wakes_once_witness :
  let s := step (bus_write 100 PLL_REG_CTRL_ADDR 1 true) init in
  notify s = s /\
  wakeups (runnable false false (start_locking_event (notify s)) true (notify s))
    = 1%nat.
Proof.
  destruct (notify_twice_wakes_once
              (step (bus_write 100 PLL_REG_CTRL_ADDR 1 true) init)
              false false true eq_refl eq_refl) as (H1 & H2 & _).
  split; [exact H1 | exact H2].
Defined.

(** ** The timed wait is not raced against anything *)

(** A notification that arrives while the thread is inside the 500 ns wait is
    lost, and the wait keeps its deadline: enabling at 100 ns, disabling at
    200 ns and enabling again at 300 ns raises the line at 600 ns, and nothing
    happens at 800 ns. *)
Example reenable_inside_wait :
  wave (run_until 2000
          (run_test ++ [bus_write 200 PLL_REG_CTRL_ADDR 0 true;
                        bus_write 300 PLL_REG_CTRL_ADDR 1 true]) init)
  = [(600, true)].
Proof. reflexivity. Qed.

(** The same after a reset pulse: reset high at 200 ns, low at 250 ns, the
    device enabled again at 300 ns; the line rises at 600 ns. *)
Example reenable_after_reset_inside_wait :
  wave (run_until 2000
          (run_test ++ [reset_at 200;
                        mkStim 250 false false false 0 0 true;
                        bus_write 300 PLL_REG_CTRL_ADDR 1 true]) init)
  = [(600, true)].
Proof. reflexivity. Qed.
